(** * ExpoCamera2View: the capability-gated command proxy

    A shallow embedding of [packages/expo-camera2/src/ExpoCamera2View.tsx].

    The component forwards eight imperative commands to the native view
    manager [ExpoCamera2ViewManager], a JavaScript object used as a map from
    method names to callables.  Every command is wrapped by the decorator
    [ensureAvailable], which reads the entry stored under the method's own
    name and throws [UnavailabilityError] when that entry is falsy.

    JavaScript values are an inductive type, the view manager is a [gmap]
    from property names to entries, and the methods live in a small state and
    exception monad whose state holds the component instance, the state of
    the native side and a log of the calls made into the view manager. *)

From Stdlib Require Import String List Bool ZArith QArith Qcanon.
From stdpp Require Import base numbers strings gmap.
Import ListNotations.

Local Open Scope string_scope.
Local Open Scope list_scope.

Set Warnings "-register-all".

(** ** JavaScript values *)

(** Finite numbers are rationals; [NaN] is kept apart because it is falsy.
    A promise is described by its settlement. *)
Inductive value : Type :=
| VUndefined
| VNull
| VBool (b : bool)
| VNum (q : Qc)
| VNaN
| VStr (s : string)
| VObj (fields : list (string * value))
| VPromise (p : settlement)
with settlement : Type :=
| Pending
| Fulfilled (v : value)
| Rejected (reason : value).

(** What a [throw] can carry.  [UnavailabilityError] keeps the two arguments
    its constructor is given; [NotAFunction] is the engine's [TypeError] for
    calling a property that is not callable; [Raised] is anything a native
    function throws. *)
Inductive thrown : Type :=
| UnavailabilityError (moduleName propertyName : string)
| NotAFunction (propertyName : string)
| Raised (v : value).

Inductive completion (A : Type) : Type :=
| Normal (a : A)
| Throw (e : thrown).
Arguments Normal {A} a.
Arguments Throw {A} e.

(** ECMAScript [ToBoolean] on the values above. *)
Definition ToBoolean (v : value) : bool :=
  match v with
  | VUndefined | VNull | VNaN => false
  | VBool b => b
  | VNum q => negb (bool_decide (q = 0%Qc))
  | VStr s => negb (String.eqb s "")
  | VObj _ | VPromise _ => true
  end.

(** [await v]: what a caller that awaits the value observes, when it is
    settled. *)
Definition await (v : value) : option (completion value) :=
  match v with
  | VPromise Pending => None
  | VPromise (Fulfilled r) => Some (Normal r)
  | VPromise (Rejected e) => Some (Throw (Raised e))
  | _ => Some (Normal v)
  end.

(** ** Props and their defaults *)

(** [Autofocus], [Facing], [FlashMode] and [WhiteBalance] are enums imported
    from [ExpoCamera2.types]; a member is referred to by enum and member
    name, as the source does. *)
Inductive enum_member : Type :=
| Member (enum member : string).

Definition callback : Type := list value -> completion value.

Record ExpoCamera2ViewProps : Type := {
  autofocus : option enum_member;
  facing : option enum_member;
  flashMode : option enum_member;
  focusDepth : option Qc;
  whiteBalance : option enum_member;
  zoom : option Qc;
  onCameraReady : option callback;
  onMountError : option callback
}.

Definition noop : callback := fun _ => Normal VUndefined.

Definition defaultProps : ExpoCamera2ViewProps := {|
  autofocus := Some (Member "Autofocus" "Off");
  facing := Some (Member "Facing" "Back");
  flashMode := Some (Member "FlashMode" "Off");
  focusDepth := Some 0%Qc;
  whiteBalance := Some (Member "WhiteBalance" "Auto");
  zoom := Some 0%Qc;
  onCameraReady := Some noop;
  onMountError := Some noop
|}.

(** React's resolution of [defaultProps]: a prop that is [undefined] takes
    the default, any other value is kept. *)
Definition or_default {A : Type} (given dflt : option A) : option A :=
  match given with
  | Some a => Some a
  | None => dflt
  end.

Definition resolveDefaultProps (dflt given : ExpoCamera2ViewProps)
  : ExpoCamera2ViewProps := {|
  autofocus := or_default (autofocus given) (autofocus dflt);
  facing := or_default (facing given) (facing dflt);
  flashMode := or_default (flashMode given) (flashMode dflt);
  focusDepth := or_default (focusDepth given) (focusDepth dflt);
  whiteBalance := or_default (whiteBalance given) (whiteBalance dflt);
  zoom := or_default (zoom given) (zoom dflt);
  onCameraReady := or_default (onCameraReady given) (onCameraReady dflt);
  onMountError := or_default (onMountError given) (onMountError dflt)
|}.

Definition unsetProps : ExpoCamera2ViewProps := {|
  autofocus := None; facing := None; flashMode := None; focusDepth := None;
  whiteBalance := None; zoom := None; onCameraReady := None;
  onMountError := None
|}.

(** ** The component instance *)

(** [cameraNodeHandle?: number]: [None] is [undefined]. *)
Record ExpoCamera2View : Type := {
  props : ExpoCamera2ViewProps;
  cameraNodeHandle : option Z
}.

Definition handle_value (h : option Z) : value :=
  match h with
  | Some n => VNum (Qc_of_Z n)
  | None => VUndefined
  end.

(** ** The view manager and the world *)

(** A property of the view manager holds a plain value or a native function.
    A native function sees its argument list and the native state; it
    completes normally or throws. *)
Inductive entry (N : Type) : Type :=
| EValue (v : value)
| EFunction (f : list value -> N -> completion value * N).
Arguments EValue {N} v.
Arguments EFunction {N} f.

Definition entry_ToBoolean {N : Type} (e : entry N) : bool :=
  match e with
  | EValue v => ToBoolean v
  | EFunction _ => true
  end.

(** One call into the view manager: the property called and the arguments. *)
Definition call : Type := string * list value.

Record World (N : Type) : Type := {
  component : ExpoCamera2View;
  native : N;
  calls : list call
}.
Arguments component {N} w.
Arguments native {N} w.
Arguments calls {N} w.

(** ** The monad of methods *)

Definition M (N A : Type) : Type := World N -> completion A * World N.

Definition ret {N A : Type} (a : A) : M N A := fun w => (Normal a, w).

Definition throw {N A : Type} (e : thrown) : M N A := fun w => (Throw e, w).

Definition bind {N A B : Type} (m : M N A) (k : A -> M N B) : M N B :=
  fun w =>
    match m w with
    | (Normal a, w') => k a w'
    | (Throw e, w') => (Throw e, w')
    end.

Notation "x <- m ;; k" := (bind m (fun x => k))
  (at level 100, m at next level, right associativity).

(** [this.cameraNodeHandle] *)
Definition read_cameraNodeHandle {N : Type} : M N (option Z) :=
  fun w => (Normal (cameraNodeHandle (component w)), w).

(** [this.cameraNodeHandle = h] *)
Definition write_cameraNodeHandle {N : Type} (h : option Z) : M N unit :=
  fun w =>
    (Normal tt,
     {| component := {| props := props (component w); cameraNodeHandle := h |};
        native := native w;
        calls := calls w |}).

(** [args[i]], [undefined] past the end. *)
Definition arg (i : nat) (args : list value) : value := nth i args VUndefined.

(** A default parameter initialiser: it applies to [undefined] only. *)
Definition default_param (dflt v : value) : value :=
  match v with
  | VUndefined => dflt
  | _ => v
  end.

(** Running the native function [f] stored under [propertyName] on
    [actuals]: the call is logged, the native state moves on, the component
    is out of the function's reach (it is handed values only). *)
Definition applyNative {N : Type}
    (f : list value -> N -> completion value * N)
    (propertyName : string) (actuals : list value) : M N value :=
  fun w =>
    (fst (f actuals (native w)),
     {| component := component w;
        native := snd (f actuals (native w));
        calls := calls w ++ [(propertyName, actuals)] |}).

Section Proxy.

Context {N : Type}.

(** The imported view manager: a JavaScript object used as a map. *)
Variable ExpoCamera2ViewManager : gmap string (entry N).

(** [findNodeHandle] of react-native: [null | number]. *)
Context {Ref : Type}.
Variable findNodeHandle : Ref -> option Z.

(** [ExpoCamera2ViewManager[propertyName]]: a missing property reads as
    [undefined]. *)
Definition property (propertyName : string) : entry N :=
  match ExpoCamera2ViewManager !! propertyName with
  | Some e => e
  | None => EValue VUndefined
  end.

(** [ExpoCamera2ViewManager.propertyName(...actuals)]: calling something
    that is not a function is a [TypeError]; a call is logged and run on
    the native state. *)
Definition callNative (propertyName : string) (actuals : list value)
  : M N value :=
  match property propertyName with
  | EFunction f => applyNative f propertyName actuals
  | EValue _ => throw (NotAFunction propertyName)
  end.

(** *** The method bodies, before decoration *)

Definition pausePreviewAsync_body (args : list value) : M N value :=
  h <- read_cameraNodeHandle ;;
  callNative "pausePreviewAsync" [handle_value h].

Definition resumePreviewAsync_body (args : list value) : M N value :=
  h <- read_cameraNodeHandle ;;
  callNative "resumePreviewAsync" [handle_value h].

Definition takePictureAsync_body (args : list value) : M N value :=
  let options := default_param (VObj []) (arg 0 args) in
  h <- read_cameraNodeHandle ;;
  callNative "takePictureAsync" [options; handle_value h].

Definition recordAsync_body (args : list value) : M N value :=
  let options := default_param (VObj []) (arg 0 args) in
  h <- read_cameraNodeHandle ;;
  callNative "recordAsync" [options; handle_value h].

Definition stopRecordingAsync_body (args : list value) : M N value :=
  h <- read_cameraNodeHandle ;;
  callNative "stopRecordingAsync" [handle_value h].

Definition getAvailableRatiosAsync_body (args : list value) : M N value :=
  h <- read_cameraNodeHandle ;;
  callNative "getAvailableRatiosAsync" [handle_value h].

Definition getAvailablePictureSizesAsync_body (args : list value)
  : M N value :=
  let ratio := arg 0 args in
  h <- read_cameraNodeHandle ;;
  callNative "getAvailablePictureSizesAsync" [ratio; handle_value h].

Definition focusOnPoint_body (args : list value) : M N value :=
  let previewFocusPoint := arg 0 args in
  h <- read_cameraNodeHandle ;;
  callNative "focusOnPoint" [previewFocusPoint; handle_value h].

(** *** The decorator *)

Definition ensureAvailable (propertyName : string)
    (method : list value -> M N value) : list value -> M N value :=
  fun args =>
    if negb (entry_ToBoolean (property propertyName))
    then throw (UnavailabilityError "Camera" propertyName)
    else method args.

(** *** The methods of the class *)

Definition pausePreviewAsync :=
  ensureAvailable "pausePreviewAsync" pausePreviewAsync_body.
Definition resumePreviewAsync :=
  ensureAvailable "resumePreviewAsync" resumePreviewAsync_body.
Definition takePictureAsync :=
  ensureAvailable "takePictureAsync" takePictureAsync_body.
Definition recordAsync :=
  ensureAvailable "recordAsync" recordAsync_body.
Definition stopRecordingAsync :=
  ensureAvailable "stopRecordingAsync" stopRecordingAsync_body.
Definition getAvailableRatiosAsync :=
  ensureAvailable "getAvailableRatiosAsync" getAvailableRatiosAsync_body.
Definition getAvailablePictureSizesAsync :=
  ensureAvailable "getAvailablePictureSizesAsync"
    getAvailablePictureSizesAsync_body.
Definition focusOnPoint :=
  ensureAvailable "focusOnPoint" focusOnPoint_body.

(** [if (cameraNodeHandle)] on a [null | number]. *)
Definition handle_ToBoolean (h : option Z) : bool :=
  match h with
  | Some n => negb (n =? 0)%Z
  | None => false
  end.

(** [setNativeReference] as a method invoked on the component: [this] is the
    instance held in the world.  A [null] ref is [None]. *)
Definition setNativeReference (ref : option Ref) : M N value :=
  match ref with
  | Some r =>
      let cameraNodeHandle := findNodeHandle r in
      if handle_ToBoolean cameraNodeHandle
      then (_ <- write_cameraNodeHandle cameraNodeHandle ;; ret VUndefined)
      else ret VUndefined
  | None =>
      _ <- write_cameraNodeHandle None ;; ret VUndefined
  end.

End Proxy.

(** Unmounting: React calls the ref callback with [null]. *)
Definition unmount {N Ref : Type} (findNodeHandle : Ref -> option Z)
    (w : World N) : World N :=
  snd (setNativeReference findNodeHandle None w).

(** ** The eight commands *)

Inductive command : Type :=
| PausePreviewAsync
| ResumePreviewAsync
| TakePictureAsync
| RecordAsync
| StopRecordingAsync
| GetAvailableRatiosAsync
| GetAvailablePictureSizesAsync
| FocusOnPoint.

(** The property name under which the decorator receives each method. *)
Definition command_name (c : command) : string :=
  match c with
  | PausePreviewAsync => "pausePreviewAsync"
  | ResumePreviewAsync => "resumePreviewAsync"
  | TakePictureAsync => "takePictureAsync"
  | RecordAsync => "recordAsync"
  | StopRecordingAsync => "stopRecordingAsync"
  | GetAvailableRatiosAsync => "getAvailableRatiosAsync"
  | GetAvailablePictureSizesAsync => "getAvailablePictureSizesAsync"
  | FocusOnPoint => "focusOnPoint"
  end.

(** Invoking a command on the component: the decorated method is applied to
    the caller's argument list. *)
Definition invoke {N : Type} (manager : gmap string (entry N)) (c : command)
  : list value -> M N value :=
  match c with
  | PausePreviewAsync => pausePreviewAsync manager
  | ResumePreviewAsync => resumePreviewAsync manager
  | TakePictureAsync => takePictureAsync manager
  | RecordAsync => recordAsync manager
  | StopRecordingAsync => stopRecordingAsync manager
  | GetAvailableRatiosAsync => getAvailableRatiosAsync manager
  | GetAvailablePictureSizesAsync => getAvailablePictureSizesAsync manager
  | FocusOnPoint => focusOnPoint manager
  end.

(** The method [descriptor.value] holds before the decorator replaces it. *)
Definition body {N : Type} (manager : gmap string (entry N)) (c : command)
  : list value -> M N value :=
  match c with
  | PausePreviewAsync => pausePreviewAsync_body manager
  | ResumePreviewAsync => resumePreviewAsync_body manager
  | TakePictureAsync => takePictureAsync_body manager
  | RecordAsync => recordAsync_body manager
  | StopRecordingAsync => stopRecordingAsync_body manager
  | GetAvailableRatiosAsync => getAvailableRatiosAsync_body manager
  | GetAvailablePictureSizesAsync => getAvailablePictureSizesAsync_body manager
  | FocusOnPoint => focusOnPoint_body manager
  end.

(** The calls the TypeScript signatures admit: no argument for the five
    parameterless commands, at most one for the two with a defaulted
    [options], exactly one for [ratio] and [previewFocusPoint]. *)
Definition signature_admits (c : command) (args : list value) : bool :=
  match c, args with
  | (PausePreviewAsync | ResumePreviewAsync | StopRecordingAsync
     | GetAvailableRatiosAsync), [] => true
  | (TakePictureAsync | RecordAsync), ([] | [_]) => true
  | (GetAvailablePictureSizesAsync | FocusOnPoint), [_] => true
  | _, _ => false
  end.

(** The given arguments, an omitted or [undefined] [options] of
    [takePictureAsync] and [recordAsync] replaced by the empty object. *)
Definition with_default_options (c : command) (args : list value)
  : list value :=
  match c with
  | TakePictureAsync | RecordAsync =>
      match args with
      | [] | [VUndefined] => [VObj []]
      | _ => args
      end
  | _ => args
  end.

(** The values bound to a method's declared parameters when it is applied
    to [args]: a missing argument is [undefined], a surplus one is dropped,
    and the initialiser [= {}] replaces an [undefined] [options]. *)
Definition formals (c : command) (args : list value) : list value :=
  match c with
  | PausePreviewAsync | ResumePreviewAsync | StopRecordingAsync
  | GetAvailableRatiosAsync => []
  | TakePictureAsync | RecordAsync => [default_param (VObj []) (arg 0 args)]
  | GetAvailablePictureSizesAsync | FocusOnPoint => [arg 0 args]
  end.

(** What a caller sees of a completion once it has settled. *)
Definition settled (c : completion value) : option (completion value) :=
  match c with
  | Normal v => await v
  | Throw e => Some (Throw e)
  end.

(** A command "fails fast or is rejected": it throws, or it returns a
    rejected promise. *)
Definition fails_or_rejects (c : completion value) : bool :=
  match c with
  | Throw _ => true
  | Normal (VPromise (Rejected _)) => true
  | Normal _ => false
  end.

(** ** The error message *)

(** [String.prototype.startsWith] and [String.prototype.includes]. *)
Fixpoint startsWith (s search : string) {struct search} : bool :=
  match search, s with
  | EmptyString, _ => true
  | String a search', String b s' => Ascii.eqb a b && startsWith s' search'
  | String _ _, EmptyString => false
  end.

Fixpoint includes (s search : string) : bool :=
  startsWith s search ||
  match s with
  | EmptyString => false
  | String _ s' => includes s' search
  end.

(** Modelled from the spec: the message of [UnavailabilityError], a class
    imported from [./UnavailabilityError] whose source is not part of the
    package.  The spec fixes that the error "names the subsystem and the
    missing capability" and that the message includes both; the text around
    the two names ([before], [between], [after]) is left open. *)
Definition UnavailabilityError_message (before between after : string)
    (moduleName propertyName : string) : string :=
  before ++ moduleName ++ between ++ propertyName ++ after.

Definition message (before between after : string) (e : thrown)
  : option string :=
  match e with
  | UnavailabilityError moduleName propertyName =>
      Some (UnavailabilityError_message before between after
              moduleName propertyName)
  | _ => None
  end.

(** ** Sequences of method calls

    A caller's use of the component over time: lifecycle calls and command
    invocations in any order, every completion observed by the caller and
    the next call made on the world the previous one left. *)
Inductive operation (Ref : Type) : Type :=
| SetNativeReference (ref : option Ref)
| Invoke (c : command) (args : list value).
Arguments SetNativeReference {Ref} ref.
Arguments Invoke {Ref} c args.

Definition perform {N Ref : Type} (manager : gmap string (entry N))
    (findNodeHandle : Ref -> option Z) (op : operation Ref) : M N value :=
  match op with
  | SetNativeReference ref => setNativeReference findNodeHandle ref
  | Invoke c args => invoke manager c args
  end.

Fixpoint run {N Ref : Type} (manager : gmap string (entry N))
    (findNodeHandle : Ref -> option Z) (ops : list (operation Ref))
    (w : World N) : World N :=
  match ops with
  | [] => w
  | op :: ops' =>
      run manager findNodeHandle ops'
        (snd (perform manager findNodeHandle op w))
  end.

Definition is_invocation {Ref : Type} (op : operation Ref) : bool :=
  match op with
  | Invoke _ _ => true
  | SetNativeReference _ => false
  end.

(** ** The receiver of [setNativeReference], and [render]

    [render] hands [this.setNativeReference] to the [ref] prop as it is: a
    function value that is not bound to the instance, so that [this] is
    whatever its caller supplies.  Class bodies are strict code: called as a
    plain function, [this] is [undefined], and assigning to a property of
    [undefined] is a [TypeError]. *)
Inductive receiver : Type :=
| ThisInstance
| ThisUndefined.

Definition TypeError : thrown := Raised (VObj [("name", VStr "TypeError")]).

(** [this.cameraNodeHandle = h] for either receiver. *)
Definition assign_cameraNodeHandle {N : Type} (this : receiver)
    (h : option Z) : M N unit :=
  match this with
  | ThisInstance => write_cameraNodeHandle h
  | ThisUndefined => throw TypeError
  end.

Definition setNativeReference_on {N Ref : Type}
    (findNodeHandle : Ref -> option Z) (this : receiver) (ref : option Ref)
  : M N value :=
  match ref with
  | Some r =>
      let cameraNodeHandle := findNodeHandle r in
      if handle_ToBoolean cameraNodeHandle
      then (_ <- assign_cameraNodeHandle this cameraNodeHandle ;;
            ret VUndefined)
      else ret VUndefined
  | None =>
      _ <- assign_cameraNodeHandle this None ;; ret VUndefined
  end.

(** The element [render] returns: the native view, the component's props
    spread onto it, and the unbound method as [ref]. *)
Record element (N Ref : Type) : Type := {
  element_type : string;
  element_props : ExpoCamera2ViewProps;
  element_ref : receiver -> option Ref -> M N value
}.
Arguments element_type {N Ref} e.
Arguments element_props {N Ref} e.
Arguments element_ref {N Ref} e.

Definition render {N Ref : Type} (findNodeHandle : Ref -> option Z)
    (w : World N) : element N Ref := {|
  element_type := "ExpoNativeCameraView";
  element_props := props (component w);
  element_ref := setNativeReference_on findNodeHandle
|}.

(** ** A sample native side

    The native state counts the pictures taken.  [takePictureAsync] and
    [pausePreviewAsync] are implemented, [recordAsync] is present but
    [null], [focusOnPoint] always throws, the other properties are
    missing. *)

Definition picture : value := VObj [("uri", VStr "file://x.jpg")].

Definition native_takePictureAsync (actuals : list value) (n : nat)
  : completion value * nat :=
  (Normal (VPromise (Fulfilled picture)), S n).

Definition native_pausePreviewAsync (actuals : list value) (n : nat)
  : completion value * nat :=
  (Normal (VPromise (Fulfilled VUndefined)), n).

Definition native_focusOnPoint (actuals : list value) (n : nat)
  : completion value * nat :=
  (Throw (Raised (VStr "E_CAMERA_FOCUS")), n).

Definition sample_manager : gmap string (entry nat) :=
  <["takePictureAsync" := EFunction native_takePictureAsync]>
  (<["pausePreviewAsync" := EFunction native_pausePreviewAsync]>
  (<["focusOnPoint" := EFunction native_focusOnPoint]>
  (<["recordAsync" := EValue VNull]> ∅))).

(** Refs are numbered; [findNodeHandle] resolves ref [1] to tag [7] and
    nothing else. *)
Definition sample_findNodeHandle (r : nat) : option Z :=
  match r with
  | 1%nat => Some 7%Z
  | 2%nat => Some 0%Z
  | _ => None
  end.

Definition mounted : World nat := {|
  component := {| props := defaultProps; cameraNodeHandle := Some 7%Z |};
  native := 0%nat;
  calls := []
|}.

(** A view manager whose [stopRecordingAsync] is present and truthy but not
    callable. *)
Definition stubbed_manager : gmap string (entry nat) :=
  <["stopRecordingAsync" := EValue (VBool true)]> sample_manager.

(** A component that has not been mounted yet. *)
Definition fresh : World nat := {|
  component := {| props := defaultProps; cameraNodeHandle := None |};
  native := 0%nat;
  calls := []
|}.

(** A session: a mount that resolves to tag [7], a picture, a re-resolution
    that yields [0], a pause, the unmount, and a pause after it. *)
Definition session : list (operation nat) :=
  [SetNativeReference (Some 1%nat);
   Invoke TakePictureAsync [];
   SetNativeReference (Some 2%nat);
   Invoke PausePreviewAsync [];
   SetNativeReference None;
   Invoke PausePreviewAsync []].

(** * Properties *)

(** ** The monad and the native call *)

Lemma property_lookup {N : Type} (manager : gmap string (entry N))
    (propertyName : string) (e : entry N) :
  manager !! propertyName = Some e -> property manager propertyName = e.
Proof. intros H. unfold property. now rewrite H. Qed.

Lemma property_missing {N : Type} (manager : gmap string (entry N))
    (propertyName : string) :
  manager !! propertyName = None ->
  property manager propertyName = EValue VUndefined.
Proof. intros H. unfold property. now rewrite H. Qed.

Example sample_take :
  invoke sample_manager TakePictureAsync [] mounted
  = (Normal (VPromise (Fulfilled picture)),
     {| component := component mounted; native := 1%nat;
        calls := [("takePictureAsync", [VObj []; VNum (Qc_of_Z 7)])] |}).
Proof. vm_compute. reflexivity. Qed.

Lemma bind_read_cameraNodeHandle {N A : Type} (k : option Z -> M N A)
    (w : World N) :
  bind read_cameraNodeHandle k w = k (cameraNodeHandle (component w)) w.
Proof. reflexivity. Qed.

(** ** The decorator *)

Section Gate.

Context {N : Type}.
Variable manager : gmap string (entry N).

Lemma ensureAvailable_falsy (propertyName : string)
    (method : list value -> M N value) (args : list value) (w : World N) :
  entry_ToBoolean (property manager propertyName) = false ->
  ensureAvailable manager propertyName method args w
  = (Throw (UnavailabilityError "Camera" propertyName), w).
Proof. intros H. unfold ensureAvailable. rewrite H. reflexivity. Qed.

Lemma ensureAvailable_truthy (propertyName : string)
    (method : list value -> M N value) (args : list value) :
  entry_ToBoolean (property manager propertyName) = true ->
  ensureAvailable manager propertyName method args = method args.
Proof. intros H. unfold ensureAvailable. rewrite H. reflexivity. Qed.

Lemma callNative_function (propertyName : string) (actuals : list value)
    (f : list value -> N -> completion value * N) :
  property manager propertyName = EFunction f ->
  callNative manager propertyName actuals
  = applyNative f propertyName actuals.
Proof. intros H. unfold callNative. rewrite H. reflexivity. Qed.

Lemma callNative_value (propertyName : string) (actuals : list value)
    (v : value) :
  property manager propertyName = EValue v ->
  callNative manager propertyName actuals
  = throw (NotAFunction propertyName).
Proof. intros H. unfold callNative. rewrite H. reflexivity. Qed.

(** Every undecorated body reads the handle and makes one native call on the
    bound parameters followed by the handle. *)
Lemma body_callNative (c : command) (args : list value) (w : World N) :
  body manager c args w
  = callNative manager (command_name c)
      (formals c args ++ [handle_value (cameraNodeHandle (component w))]) w.
Proof. destruct c; reflexivity. Qed.

Lemma invoke_ensureAvailable (c : command) :
  invoke manager c = ensureAvailable manager (command_name c) (body manager c).
Proof. destruct c; reflexivity. Qed.

(** The three ways an invocation can go, by the entry under the command's
    name. *)
Lemma invoke_falsy (c : command) (args : list value) (w : World N) :
  entry_ToBoolean (property manager (command_name c)) = false ->
  invoke manager c args w
  = (Throw (UnavailabilityError "Camera" (command_name c)), w).
Proof.
  intros H. rewrite invoke_ensureAvailable.
  now apply ensureAvailable_falsy.
Qed.

Lemma invoke_function (c : command) (args : list value) (w : World N)
    (f : list value -> N -> completion value * N) :
  property manager (command_name c) = EFunction f ->
  invoke manager c args w
  = applyNative f (command_name c)
      (formals c args ++ [handle_value (cameraNodeHandle (component w))]) w.
Proof.
  intros H. rewrite invoke_ensureAvailable, ensureAvailable_truthy.
  - rewrite body_callNative. now rewrite (callNative_function _ _ f).
  - now rewrite H.
Qed.

Lemma invoke_truthy_value (c : command) (args : list value) (w : World N)
    (v : value) :
  property manager (command_name c) = EValue v ->
  ToBoolean v = true ->
  invoke manager c args w = (Throw (NotAFunction (command_name c)), w).
Proof.
  intros H Hv. rewrite invoke_ensureAvailable, ensureAvailable_truthy.
  - rewrite body_callNative. now rewrite (callNative_value _ _ v).
  - now rewrite H.
Qed.

Lemma formals_admitted (c : command) (args : list value) :
  signature_admits c args = true ->
  formals c args = with_default_options c args.
Proof.
  destruct c; destruct args as [|a [|b args]]; simpl;
    try discriminate; try reflexivity; intros _; destruct a; reflexivity.
Qed.

End Gate.

(** ** Strings *)

Lemma append_nil (t : string) : ("" ++ t)%string = t.
Proof. reflexivity. Qed.

Lemma append_cons (a : Ascii.ascii) (s t : string) :
  (String a s ++ t)%string = String a (s ++ t).
Proof. reflexivity. Qed.

Lemma startsWith_app (s t : string) : startsWith (s ++ t) s = true.
Proof.
  induction s as [|a s IH].
  - reflexivity.
  - rewrite append_cons. simpl. rewrite Ascii.eqb_refl. exact IH.
Qed.

Lemma includes_startsWith (s search : string) :
  startsWith s search = true -> includes s search = true.
Proof. intros H. destruct s; simpl; rewrite H; reflexivity. Qed.

Lemma includes_app_l (s t : string) : includes (s ++ t) s = true.
Proof. apply includes_startsWith, startsWith_app. Qed.

Lemma includes_app_r (before s search : string) :
  includes s search = true -> includes (before ++ s) search = true.
Proof.
  intros H. induction before as [|a before IH].
  - exact H.
  - rewrite append_cons. simpl. rewrite IH. apply orb_true_r.
Qed.

(** Both names occur in the message, whatever text surrounds them. *)
Lemma UnavailabilityError_message_includes
    (before between after moduleName propertyName : string) :
  includes (UnavailabilityError_message before between after
              moduleName propertyName) moduleName = true
  /\ includes (UnavailabilityError_message before between after
                 moduleName propertyName) propertyName = true.
Proof.
  unfold UnavailabilityError_message. split.
  - apply includes_app_r, includes_app_l.
  - apply includes_app_r, includes_app_r, includes_app_r, includes_app_l.
Qed.

(** ** The availability gate *)

Section Commands.

Context {N : Type}.
Variable manager : gmap string (entry N).

(** C1: for every command, when the view manager has no entry under the
    command's name, the invocation throws
    [UnavailabilityError('Camera', name)] as its own (synchronous)
    completion, and the world is left as it was: no call is logged and the
    native state has not moved. *)
Theorem unavailable_command_throws (c : command) (args : list value)
    (w : World N) :
  manager !! command_name c = None ->
  invoke manager c args w
  = (Throw (UnavailabilityError "Camera" (command_name c)), w).
Proof.
  intros H. apply invoke_falsy.
  now rewrite (property_missing _ _ H).
Qed.

(** C2, amended: for every command whose entry is a function [f], an
    invocation the signature admits calls [f] once, on the given arguments
    (an omitted or [undefined] [options] of [takePictureAsync] and
    [recordAsync] replaced by [{}]) followed by the current handle, and its
    completion is the completion of [f], be it a value or a throw. *)
Theorem command_forwards_to_registry (c : command) (args : list value)
    (w : World N) (f : list value -> N -> completion value * N) :
  signature_admits c args = true ->
  manager !! command_name c = Some (EFunction f) ->
  invoke manager c args w
  = (fst (f (with_default_options c args
             ++ [handle_value (cameraNodeHandle (component w))]) (native w)),
     {| component := component w;
        native :=
          snd (f (with_default_options c args
                  ++ [handle_value (cameraNodeHandle (component w))])
                 (native w));
        calls :=
          calls w
          ++ [(command_name c,
               with_default_options c args
               ++ [handle_value (cameraNodeHandle (component w))])] |}).
Proof.
  intros Hsig Hf.
  rewrite (invoke_function manager c args w f (property_lookup _ _ _ Hf)).
  rewrite (formals_admitted c args Hsig). reflexivity.
Qed.

(** C7: no command changes the component: its props and its
    [cameraNodeHandle] are the same after the invocation as before, however
    the invocation completes. *)
Theorem command_preserves_component (c : command) (args : list value)
    (w : World N) :
  component (snd (invoke manager c args w)) = component w.
Proof.
  destruct (property manager (command_name c)) as [v|f] eqn:E.
  - destruct (ToBoolean v) eqn:T.
    + now rewrite (invoke_truthy_value manager c args w v E T).
    + rewrite invoke_falsy; [reflexivity | now rewrite E].
  - now rewrite (invoke_function manager c args w f E).
Qed.

(** C8: the gate tests truthiness.  [undefined], [null], [0], [false] and
    the empty string are falsy; and for every command, when the entry under
    its name is missing or is present with a falsy value, the invocation
    throws [UnavailabilityError('Camera', name)] and the world is left as it
    was, so nothing stored in the view manager is called. *)
Theorem gate_tests_truthiness :
  Forall (fun v => ToBoolean v = false)
    [VUndefined; VNull; VNum 0%Qc; VBool false; VStr ""]
  /\ forall (c : command) (args : list value) (w : World N),
       (manager !! command_name c = None
        \/ exists v, manager !! command_name c = Some (EValue v)
                     /\ ToBoolean v = false) ->
       invoke manager c args w
       = (Throw (UnavailabilityError "Camera" (command_name c)), w).
Proof.
  split.
  - repeat constructor.
  - intros c args w [H | (v & H & Hv)]; apply invoke_falsy.
    + now rewrite (property_missing _ _ H).
    + now rewrite (property_lookup _ _ _ H).
Qed.

(** C10: [takePictureAsync] and [recordAsync] called with no argument hand
    the native function the empty object and the handle: the proxy itself
    has put [{}] in the place of the missing [options]. *)
Theorem omitted_options_become_empty_object (c : command) (w : World N)
    (f : list value -> N -> completion value * N) :
  c = TakePictureAsync \/ c = RecordAsync ->
  manager !! command_name c = Some (EFunction f) ->
  invoke manager c [] w
  = applyNative f (command_name c)
      [VObj []; handle_value (cameraNodeHandle (component w))] w
  /\ calls (snd (invoke manager c [] w))
     = calls w
       ++ [(command_name c,
            [VObj []; handle_value (cameraNodeHandle (component w))])].
Proof.
  intros Hc Hf.
  rewrite (invoke_function manager c [] w f (property_lookup _ _ _ Hf)).
  destruct Hc as [-> | ->]; split; reflexivity.
Qed.

(** C5: when the entry [getAvailableRatiosAsync] is [undefined],
    [getAvailableRatiosAsync()] throws an error whose message includes both
    "Camera" and "getAvailableRatiosAsync". *)
Theorem getAvailableRatiosAsync_unavailable_message (args : list value)
    (w : World N) (before between after : string) :
  property manager "getAvailableRatiosAsync" = EValue VUndefined ->
  exists (e : thrown) (msg : string),
    getAvailableRatiosAsync manager args w = (Throw e, w)
    /\ message before between after e = Some msg
    /\ includes msg "Camera" = true
    /\ includes msg "getAvailableRatiosAsync" = true.
Proof.
  intros H.
  exists (UnavailabilityError "Camera" "getAvailableRatiosAsync").
  eexists. split; [|split; [reflexivity|]].
  - apply (invoke_falsy manager GetAvailableRatiosAsync).
    simpl. now rewrite H.
  - apply UnavailabilityError_message_includes.
Qed.

(** C6: when the entry [takePictureAsync] is a function that returns
    [{uri: "file://x.jpg"}] (as such or as the value of a fulfilled
    promise), [takePictureAsync] resolves to exactly that object. *)
Theorem takePictureAsync_resolves_to_picture (args : list value)
    (w : World N) (f : list value -> N -> completion value * N) :
  manager !! "takePictureAsync" = Some (EFunction f) ->
  (forall actuals n,
     settled (fst (f actuals n))
     = Some (Normal (VObj [("uri", VStr "file://x.jpg")]))) ->
  settled (fst (takePictureAsync manager args w))
  = Some (Normal (VObj [("uri", VStr "file://x.jpg")])).
Proof.
  intros Hf Hret.
  change (takePictureAsync manager args w)
    with (invoke manager TakePictureAsync args w).
  rewrite (invoke_function manager TakePictureAsync args w f
             (property_lookup _ _ _ Hf)).
  apply Hret.
Qed.

End Commands.

(** ** The handle and the mount lifecycle *)

Section Lifecycle.

Context {N Ref : Type}.
Variable manager : gmap string (entry N).
Variable findNodeHandle : Ref -> option Z.

Lemma setNativeReference_null (w : World N) :
  setNativeReference findNodeHandle None w
  = (Normal VUndefined,
     {| component :=
          {| props := props (component w); cameraNodeHandle := None |};
        native := native w;
        calls := calls w |}).
Proof. reflexivity. Qed.

Lemma setNativeReference_resolved (r : Ref) (w : World N) :
  handle_ToBoolean (findNodeHandle r) = true ->
  setNativeReference findNodeHandle (Some r) w
  = (Normal VUndefined,
     {| component :=
          {| props := props (component w);
             cameraNodeHandle := findNodeHandle r |};
        native := native w;
        calls := calls w |}).
Proof. intros H. unfold setNativeReference. rewrite H. reflexivity. Qed.

(** C3, amended: after [setNativeReference(null)] the field
    [cameraNodeHandle] is [undefined].  A command invoked afterwards is not
    stopped by the proxy for want of a handle: when its entry is a function
    [f], [f] is called on the arguments followed by [undefined] (never the
    handle held before) and its completion is returned as it is; when its
    entry is falsy, the command throws [UnavailabilityError] as before. *)
Theorem unmount_clears_handle (w : World N) :
  cameraNodeHandle (component (unmount findNodeHandle w)) = None
  /\ (forall (c : command) (args : list value)
        (f : list value -> N -> completion value * N),
        signature_admits c args = true ->
        manager !! command_name c = Some (EFunction f) ->
        invoke manager c args (unmount findNodeHandle w)
        = (fst (f (with_default_options c args ++ [VUndefined]) (native w)),
           {| component := component (unmount findNodeHandle w);
              native :=
                snd (f (with_default_options c args ++ [VUndefined])
                       (native w));
              calls :=
                calls w
                ++ [(command_name c,
                     with_default_options c args ++ [VUndefined])] |}))
  /\ (forall (c : command) (args : list value),
        entry_ToBoolean (property manager (command_name c)) = false ->
        invoke manager c args (unmount findNodeHandle w)
        = (Throw (UnavailabilityError "Camera" (command_name c)),
           unmount findNodeHandle w)).
Proof.
  split; [reflexivity | split].
  - intros c args f Hsig Hf.
    rewrite (invoke_function manager c args _ f (property_lookup _ _ _ Hf)).
    rewrite (formals_admitted c args Hsig). reflexivity.
  - intros c args H. now apply invoke_falsy.
Qed.

(** C9: when [setNativeReference] receives a ref for which
    [findNodeHandle] gives a falsy result, nothing is written: the component
    keeps the handle it had, and every command invoked afterwards behaves as
    it would have before, forwarding that handle. *)
Theorem failed_resolution_keeps_handle (r : Ref) (w : World N) :
  handle_ToBoolean (findNodeHandle r) = false ->
  setNativeReference findNodeHandle (Some r) w = (Normal VUndefined, w)
  /\ cameraNodeHandle
       (component (snd (setNativeReference findNodeHandle (Some r) w)))
     = cameraNodeHandle (component w)
  /\ forall (c : command) (args : list value),
       invoke manager c args
         (snd (setNativeReference findNodeHandle (Some r) w))
       = invoke manager c args w.
Proof.
  intros H.
  assert (E : setNativeReference findNodeHandle (Some r) w
              = (Normal VUndefined, w)).
  { unfold setNativeReference. rewrite H. reflexivity. }
  rewrite E. repeat split.
Qed.

End Lifecycle.

(** ** Default props *)

(** C4: when the six configurable props are unset, the props the component
    runs with are the defaults: autofocus off, facing back, flash mode off,
    focus depth 0.0, white balance auto, zoom 0.0. *)
Theorem defaults_apply_when_unset (given : ExpoCamera2ViewProps) :
  autofocus given = None ->
  facing given = None ->
  flashMode given = None ->
  focusDepth given = None ->
  whiteBalance given = None ->
  zoom given = None ->
  autofocus (resolveDefaultProps defaultProps given)
  = Some (Member "Autofocus" "Off")
  /\ facing (resolveDefaultProps defaultProps given)
     = Some (Member "Facing" "Back")
  /\ flashMode (resolveDefaultProps defaultProps given)
     = Some (Member "FlashMode" "Off")
  /\ focusDepth (resolveDefaultProps defaultProps given) = Some 0%Qc
  /\ whiteBalance (resolveDefaultProps defaultProps given)
     = Some (Member "WhiteBalance" "Auto")
  /\ zoom (resolveDefaultProps defaultProps given) = Some 0%Qc.
Proof.
  intros Ha Hf Hm Hd Hw Hz. simpl.
  rewrite Ha, Hf, Hm, Hd, Hw, Hz. repeat split.
Qed.

(** ** Where the code departs from the words *)

(** C2, as stated, fails: [takePictureAsync()] is given no argument, yet the
    native function receives [{}] before the handle, not the handle alone. *)
Lemma omitted_options_not_forwarded_verbatim :
  ~ (forall (c : command) (args : list value) (w : World nat)
       (f : list value -> nat -> completion value * nat),
       signature_admits c args = true ->
       sample_manager !! command_name c = Some (EFunction f) ->
       calls (snd (invoke sample_manager c args w))
       = calls w
         ++ [(command_name c,
              args ++ [handle_value (cameraNodeHandle (component w))])]).
Proof.
  intros H.
  specialize (H TakePictureAsync [] mounted native_takePictureAsync
                eq_refl eq_refl).
  vm_compute in H. discriminate H.
Qed.

(** C3, as stated, fails: after unmount, [pausePreviewAsync()] neither
    throws nor returns a rejected promise. *)
Lemma command_after_unmount_goes_through :
  ~ (forall (c : command) (args : list value) (w : World nat),
       fails_or_rejects
         (fst (invoke sample_manager c args
                 (unmount sample_findNodeHandle w))) = true).
Proof.
  intros H. specialize (H PausePreviewAsync [] mounted).
  vm_compute in H. discriminate H.
Qed.

(** What happens there: the native function is called with [undefined] for
    a handle and its fulfilled promise comes back. *)
Example pause_after_unmount :
  invoke sample_manager PausePreviewAsync []
    (unmount sample_findNodeHandle mounted)
  = (Normal (VPromise (Fulfilled VUndefined)),
     {| component := {| props := defaultProps; cameraNodeHandle := None |};
        native := 0%nat;
        calls := [("pausePreviewAsync", [VUndefined])] |}).
Proof. vm_compute. reflexivity. Qed.

(** ** The theorems at work on the sample native side *)

Lemma unavailable_command_throws_sample :
  sample_manager !! command_name StopRecordingAsync = None
  /\ invoke sample_manager StopRecordingAsync [] mounted
     = (Throw (UnavailabilityError "Camera" "stopRecordingAsync"), mounted).
Proof.
  split; [reflexivity|].
  apply (unavailable_command_throws sample_manager StopRecordingAsync
           [] mounted).
  reflexivity.
Defined.

Lemma command_forwards_to_registry_sample :
  signature_admits FocusOnPoint [VStr "centre"] = true
  /\ sample_manager !! command_name FocusOnPoint
     = Some (EFunction native_focusOnPoint)
  /\ invoke sample_manager FocusOnPoint [VStr "centre"] mounted
     = (Throw (Raised (VStr "E_CAMERA_FOCUS")),
        {| component := component mounted;
           native := 0%nat;
           calls :=
             [("focusOnPoint", [VStr "centre"; VNum (Qc_of_Z 7)])] |}).
Proof.
  split; [reflexivity | split; [reflexivity|]].
  apply (command_forwards_to_registry sample_manager FocusOnPoint
           [VStr "centre"] mounted native_focusOnPoint); reflexivity.
Defined.

Lemma unmount_clears_handle_sample :
  signature_admits PausePreviewAsync [] = true
  /\ sample_manager !! command_name PausePreviewAsync
     = Some (EFunction native_pausePreviewAsync)
  /\ invoke sample_manager PausePreviewAsync []
       (unmount sample_findNodeHandle mounted)
     = (Normal (VPromise (Fulfilled VUndefined)),
        {| component := component (unmount sample_findNodeHandle mounted);
           native := 0%nat;
           calls := [("pausePreviewAsync", [VUndefined])] |})
  /\ entry_ToBoolean (property sample_manager (command_name RecordAsync))
     = false
  /\ invoke sample_manager RecordAsync []
       (unmount sample_findNodeHandle mounted)
     = (Throw (UnavailabilityError "Camera" "recordAsync"),
        unmount sample_findNodeHandle mounted).
Proof.
  split; [reflexivity | split; [reflexivity | split; [| split]]].
  - apply (proj1 (proj2 (unmount_clears_handle sample_manager
                           sample_findNodeHandle mounted))
             PausePreviewAsync [] native_pausePreviewAsync); reflexivity.
  - reflexivity.
  - apply (proj2 (proj2 (unmount_clears_handle sample_manager
                           sample_findNodeHandle mounted))
             RecordAsync []); reflexivity.
Defined.

Lemma defaults_apply_when_unset_sample :
  autofocus (resolveDefaultProps defaultProps unsetProps)
  = Some (Member "Autofocus" "Off")
  /\ facing (resolveDefaultProps defaultProps unsetProps)
     = Some (Member "Facing" "Back")
  /\ flashMode (resolveDefaultProps defaultProps unsetProps)
     = Some (Member "FlashMode" "Off")
  /\ focusDepth (resolveDefaultProps defaultProps unsetProps) = Some 0%Qc
  /\ whiteBalance (resolveDefaultProps defaultProps unsetProps)
     = Some (Member "WhiteBalance" "Auto")
  /\ zoom (resolveDefaultProps defaultProps unsetProps) = Some 0%Qc.
Proof. apply (defaults_apply_when_unset unsetProps); reflexivity. Defined.

Lemma getAvailableRatiosAsync_unavailable_message_sample :
  property sample_manager "getAvailableRatiosAsync" = EValue VUndefined
  /\ exists (e : thrown) (msg : string),
       getAvailableRatiosAsync sample_manager [] mounted = (Throw e, mounted)
       /\ message "The method or property " "." " is not available" e
          = Some msg
       /\ includes msg "Camera" = true
       /\ includes msg "getAvailableRatiosAsync" = true.
Proof.
  split; [reflexivity|].
  apply (getAvailableRatiosAsync_unavailable_message sample_manager []
           mounted "The method or property " "." " is not available").
  reflexivity.
Defined.

Lemma takePictureAsync_resolves_to_picture_sample :
  sample_manager !! "takePictureAsync"
  = Some (EFunction native_takePictureAsync)
  /\ settled (fst (takePictureAsync sample_manager [] mounted))
     = Some (Normal (VObj [("uri", VStr "file://x.jpg")])).
Proof.
  split; [reflexivity|].
  apply (takePictureAsync_resolves_to_picture sample_manager [] mounted
           native_takePictureAsync); [reflexivity|].
  intros actuals n. reflexivity.
Defined.

Lemma gate_tests_truthiness_sample :
  sample_manager !! command_name RecordAsync = Some (EValue VNull)
  /\ ToBoolean VNull = false
  /\ invoke sample_manager RecordAsync [VObj []] mounted
     = (Throw (UnavailabilityError "Camera" "recordAsync"), mounted).
Proof.
  split; [reflexivity | split; [reflexivity|]].
  apply (proj2 (gate_tests_truthiness sample_manager) RecordAsync
           [VObj []] mounted).
  right. exists VNull. split; reflexivity.
Defined.

Lemma failed_resolution_keeps_handle_sample :
  handle_ToBoolean (sample_findNodeHandle 2) = false
  /\ setNativeReference sample_findNodeHandle (Some 2%nat) mounted
     = (Normal VUndefined, mounted)
  /\ cameraNodeHandle
       (component
          (snd (setNativeReference sample_findNodeHandle (Some 2%nat)
                  mounted)))
     = Some 7%Z.
Proof.
  split; [reflexivity|].
  pose proof (failed_resolution_keeps_handle sample_manager
                sample_findNodeHandle 2%nat mounted eq_refl) as [H1 [H2 _]].
  split; [exact H1 | exact H2].
Defined.

Lemma omitted_options_become_empty_object_sample :
  sample_manager !! command_name TakePictureAsync
  = Some (EFunction native_takePictureAsync)
  /\ calls (snd (invoke sample_manager TakePictureAsync [] mounted))
     = [("takePictureAsync", [VObj []; VNum (Qc_of_Z 7)])].
Proof.
  split; [reflexivity|].
  apply (proj2 (omitted_options_become_empty_object sample_manager
                  TakePictureAsync mounted native_takePictureAsync
                  (or_introl eq_refl) eq_refl)).
Defined.

(** * Further properties of the proxy *)

Lemma command_name_inj (c c' : command) :
  command_name c = command_name c' -> c = c'.
Proof. destruct c, c'; simpl; intros H; try reflexivity; discriminate H. Qed.

Section Outcomes.

Context {N : Type}.
Variable manager : gmap string (entry N).

(** An invocation goes one of three ways. *)
Lemma invoke_outcomes (c : command) (args : list value) (w : World N) :
  invoke manager c args w
  = (Throw (UnavailabilityError "Camera" (command_name c)), w)
  \/ invoke manager c args w = (Throw (NotAFunction (command_name c)), w)
  \/ exists f,
       manager !! command_name c = Some (EFunction f)
       /\ invoke manager c args w
          = applyNative f (command_name c)
              (formals c args
               ++ [handle_value (cameraNodeHandle (component w))]) w.
Proof.
  destruct (manager !! command_name c) as [[v|f]|] eqn:E.
  - destruct (ToBoolean v) eqn:T.
    + right; left.
      exact (invoke_truthy_value manager c args w v
               (property_lookup _ _ _ E) T).
    + left. apply invoke_falsy. now rewrite (property_lookup _ _ _ E).
  - right; right. exists f. split; [reflexivity|].
    exact (invoke_function manager c args w f (property_lookup _ _ _ E)).
  - left. apply invoke_falsy. now rewrite (property_missing _ _ E).
Qed.

Lemma invoke_component (c : command) (args : list value) (w : World N) :
  component (snd (invoke manager c args w)) = component w.
Proof.
  destruct (invoke_outcomes c args w) as [E | [E | (f & _ & E)]];
    rewrite E; reflexivity.
Qed.

(** X1: an entry that is truthy but not a function passes the gate; the
    command then fails with the engine's [TypeError] for calling a
    non-function, not with [UnavailabilityError], and nothing has been
    called or changed. *)
Theorem truthy_non_function_entry_is_type_error (c : command)
    (args : list value) (w : World N) (v : value) :
  manager !! command_name c = Some (EValue v) ->
  ToBoolean v = true ->
  invoke manager c args w = (Throw (NotAFunction (command_name c)), w).
Proof.
  intros E T.
  exact (invoke_truthy_value manager c args w v (property_lookup _ _ _ E) T).
Qed.

(** X3: a command makes at most one call into the view manager, and only
    to the entry under its own name, with the handle as last argument; when
    it makes none, the native state is untouched. *)
Theorem command_calls_only_its_own_entry (c : command) (args : list value)
    (w : World N) :
  (calls (snd (invoke manager c args w)) = calls w
   /\ native (snd (invoke manager c args w)) = native w)
  \/ exists f,
       manager !! command_name c = Some (EFunction f)
       /\ calls (snd (invoke manager c args w))
          = calls w
            ++ [(command_name c,
                 formals c args
                 ++ [handle_value (cameraNodeHandle (component w))])].
Proof.
  destruct (invoke_outcomes c args w) as [E | [E | (f & Hf & E)]];
    rewrite E.
  - left. split; reflexivity.
  - left. split; reflexivity.
  - right. exists f. split; [exact Hf | reflexivity].
Qed.

(** X4: a command looks at its first argument at most.  Surplus arguments
    are dropped, a missing argument is the same as [undefined], and the
    commands without parameters ignore their arguments altogether. *)
Theorem only_first_argument_matters (c : command) (args : list value)
    (w : World N) :
  invoke manager c args w = invoke manager c [arg 0 args] w
  /\ (In c [PausePreviewAsync; ResumePreviewAsync; StopRecordingAsync;
             GetAvailableRatiosAsync] ->
      invoke manager c args w = invoke manager c [] w).
Proof.
  rewrite invoke_ensureAvailable. unfold ensureAvailable.
  destruct (negb (entry_ToBoolean (property manager (command_name c)))).
  - split; reflexivity.
  - rewrite !body_callNative. split.
    + destruct c; reflexivity.
    + intros H. simpl in H.
      destruct H as [<- | [<- | [<- | [<- | []]]]]; reflexivity.
Qed.

(** X11: the proxy's own failure is exact.  A command completes with
    [UnavailabilityError('Camera', name)] on an untouched world if and only
    if the entry under its name is falsy. *)
Theorem unavailability_iff_falsy_entry (c : command) (args : list value)
    (w : World N) :
  entry_ToBoolean (property manager (command_name c)) = false
  <-> invoke manager c args w
      = (Throw (UnavailabilityError "Camera" (command_name c)), w).
Proof.
  split; [apply invoke_falsy|].
  intros H. destruct (property manager (command_name c)) as [v|f] eqn:E.
  - simpl. destruct (ToBoolean v) eqn:T; [|reflexivity].
    rewrite (invoke_truthy_value manager c args w v E T) in H.
    discriminate H.
  - rewrite (invoke_function manager c args w f E) in H.
    unfold applyNative in H.
    apply (f_equal (fun p => length (calls (snd p)))) in H.
    simpl in H. rewrite length_app in H. simpl in H. lia.
Qed.

End Outcomes.

(** The entry under the command's name is all a command sees of the view
    manager. *)
Lemma invoke_same_entry {N : Type} (m1 m2 : gmap string (entry N))
    (c : command) (args : list value) (w : World N) :
  m1 !! command_name c = m2 !! command_name c ->
  invoke m1 c args w = invoke m2 c args w.
Proof.
  intros H.
  assert (P : property m1 (command_name c) = property m2 (command_name c)).
  { unfold property. now rewrite H. }
  rewrite !invoke_ensureAvailable. unfold ensureAvailable. rewrite P.
  destruct (negb (entry_ToBoolean (property m2 (command_name c))));
    [reflexivity|].
  rewrite !body_callNative. unfold callNative. rewrite P. reflexivity.
Qed.

(** X2: the commands are gated one by one.  Setting or removing the entry
    of one command changes nothing for any other command. *)
Theorem other_commands_unaffected {N : Type} (manager : gmap string (entry N))
    (c c' : command) (e : entry N) (args : list value) (w : World N) :
  c <> c' ->
  invoke (<[command_name c := e]> manager) c' args w
  = invoke manager c' args w
  /\ invoke (delete (command_name c) manager) c' args w
     = invoke manager c' args w.
Proof.
  intros Hne.
  assert (Hn : command_name c <> command_name c').
  { intros E. apply Hne. now apply command_name_inj. }
  split; apply invoke_same_entry.
  - now rewrite lookup_insert_ne.
  - now rewrite lookup_delete_ne.
Qed.

(** ** The lifecycle callback *)

Section Mounting.

Context {N Ref : Type}.
Variable manager : gmap string (entry N).
Variable findNodeHandle : Ref -> option Z.

Lemma handle_ToBoolean_nonzero (h : option Z) :
  handle_ToBoolean h = true -> h <> Some 0%Z.
Proof. intros H E. subst h. discriminate H. Qed.

(** X5: once [setNativeReference] has resolved a ref to a truthy handle,
    that handle is the one held, and a command whose entry is a function
    passes it on as the last argument of the call. *)
Theorem resolved_handle_is_forwarded (r : Ref) (w : World N) (c : command)
    (args : list value) (f : list value -> N -> completion value * N) :
  handle_ToBoolean (findNodeHandle r) = true ->
  manager !! command_name c = Some (EFunction f) ->
  cameraNodeHandle
    (component (snd (setNativeReference findNodeHandle (Some r) w)))
  = findNodeHandle r
  /\ invoke manager c args
       (snd (setNativeReference findNodeHandle (Some r) w))
     = (fst (f (formals c args ++ [handle_value (findNodeHandle r)])
               (native w)),
        {| component :=
             {| props := props (component w);
                cameraNodeHandle := findNodeHandle r |};
           native :=
             snd (f (formals c args ++ [handle_value (findNodeHandle r)])
                    (native w));
           calls :=
             calls w
             ++ [(command_name c,
                  formals c args ++ [handle_value (findNodeHandle r)])] |}).
Proof.
  intros H Hf. rewrite (setNativeReference_resolved findNodeHandle r w H).
  split; [reflexivity|].
  rewrite (invoke_function manager c args _ f (property_lookup _ _ _ Hf)).
  reflexivity.
Qed.

(** X6: [setNativeReference] always returns [undefined] and never throws;
    it makes no call into the view manager, leaves the native state alone
    and does not touch the props. *)
Theorem setNativeReference_writes_handle_only (ref : option Ref)
    (w : World N) :
  fst (setNativeReference findNodeHandle ref w) = Normal VUndefined
  /\ native (snd (setNativeReference findNodeHandle ref w)) = native w
  /\ calls (snd (setNativeReference findNodeHandle ref w)) = calls w
  /\ props (component (snd (setNativeReference findNodeHandle ref w)))
     = props (component w).
Proof.
  destruct ref as [r|]; unfold setNativeReference.
  - destruct (handle_ToBoolean (findNodeHandle r)); repeat split.
  - repeat split.
Qed.

Lemma setNativeReference_handle_nonzero (ref : option Ref) (w : World N) :
  cameraNodeHandle (component w) <> Some 0%Z ->
  cameraNodeHandle
    (component (snd (setNativeReference findNodeHandle ref w)))
  <> Some 0%Z.
Proof.
  intros Hw. destruct ref as [r|]; unfold setNativeReference.
  - destruct (handle_ToBoolean (findNodeHandle r)) eqn:T.
    + simpl. now apply handle_ToBoolean_nonzero.
    + exact Hw.
  - simpl. discriminate.
Qed.

Lemma perform_handle_nonzero (op : operation Ref) (w : World N) :
  cameraNodeHandle (component w) <> Some 0%Z ->
  cameraNodeHandle
    (component (snd (perform manager findNodeHandle op w)))
  <> Some 0%Z.
Proof.
  intros Hw. destruct op as [ref | c args]; simpl.
  - now apply setNativeReference_handle_nonzero.
  - now rewrite invoke_component.
Qed.

(** X7: the stored handle is never [0].  Starting from a component whose
    handle is unset or non-zero, no sequence of lifecycle calls and
    commands leaves [0] in [cameraNodeHandle]. *)
Theorem stored_handle_never_zero (ops : list (operation Ref))
    (w : World N) :
  cameraNodeHandle (component w) <> Some 0%Z ->
  cameraNodeHandle (component (run manager findNodeHandle ops w))
  <> Some 0%Z.
Proof.
  revert w. induction ops as [|op ops IH]; intros w Hw; simpl.
  - exact Hw.
  - apply IH. now apply perform_handle_nonzero.
Qed.

(** What one step adds to the call log. *)
Lemma perform_calls (op : operation Ref) (w : World N) :
  exists new,
    calls (snd (perform manager findNodeHandle op w)) = calls w ++ new
    /\ length new <= (if is_invocation op then 1 else 0)
    /\ Forall
         (fun cl =>
            exists c params,
              cl = (command_name c,
                    params
                    ++ [handle_value (cameraNodeHandle (component w))])
              /\ is_Some (manager !! command_name c))
         new.
Proof.
  destruct op as [ref | c args]; simpl.
  - exists []. rewrite app_nil_r.
    destruct (setNativeReference_writes_handle_only ref w) as (_ & _ & E & _).
    rewrite E. repeat split; [simpl; lia | constructor].
  - destruct (invoke_outcomes manager c args w) as [E | [E | (f & Hf & E)]];
      rewrite E.
    + exists []. rewrite app_nil_r. repeat split; [simpl; lia | constructor].
    + exists []. rewrite app_nil_r. repeat split; [simpl; lia | constructor].
    + eexists [_]. split; [reflexivity | split; [simpl; lia|]].
      constructor; [|constructor].
      exists c, (formals c args). split; [reflexivity|].
      rewrite Hf. now eexists.
Qed.

(** X8: over any sequence of lifecycle calls and commands, the call log
    only grows, every call added is to the entry of one of the eight
    commands, and the handle it is given (its last argument) is either
    [undefined] or a non-zero number: the view manager is never handed [0]
    or [null] for a handle. *)
Theorem registry_receives_truthy_or_undefined_handle
    (ops : list (operation Ref)) (w : World N) :
  cameraNodeHandle (component w) <> Some 0%Z ->
  exists new,
    calls (run manager findNodeHandle ops w) = calls w ++ new
    /\ Forall
         (fun cl =>
            exists c params h,
              cl = (command_name c, params ++ [handle_value h])
              /\ h <> Some 0%Z
              /\ is_Some (manager !! command_name c))
         new.
Proof.
  revert w. induction ops as [|op ops IH]; intros w Hw; simpl.
  - exists []. rewrite app_nil_r. split; [reflexivity | constructor].
  - destruct (perform_calls op w) as (new1 & E1 & _ & F1).
    destruct (IH _ (perform_handle_nonzero op w Hw)) as (new2 & E2 & F2).
    exists (new1 ++ new2). split.
    + rewrite E2, E1. now rewrite <- app_assoc.
    + apply Forall_app. split; [|exact F2].
      eapply Forall_impl; [exact F1|].
      intros cl (c & params & -> & Hc).
      exists c, params, (cameraNodeHandle (component w)).
      repeat split; assumption.
Qed.

(** X9: the props of the component are the same after any sequence of
    lifecycle calls and commands: nothing in the class writes them. *)
Theorem run_keeps_props (ops : list (operation Ref)) (w : World N) :
  props (component (run manager findNodeHandle ops w)) = props (component w).
Proof.
  revert w. induction ops as [|op ops IH]; intros w; simpl.
  - reflexivity.
  - rewrite IH. destruct op as [ref | c args]; simpl.
    + now destruct (setNativeReference_writes_handle_only ref w)
        as (_ & _ & _ & E).
    + now rewrite invoke_component.
Qed.

(** X10: the number of calls made into the view manager over a sequence
    is at most the number of commands invoked in it; lifecycle calls make
    none. *)
Theorem at_most_one_call_per_command (ops : list (operation Ref))
    (w : World N) :
  length (calls (run manager findNodeHandle ops w))
  <= length (calls w) + length (List.filter is_invocation ops).
Proof.
  revert w. induction ops as [|op ops IH]; intros w; simpl.
  - lia.
  - specialize (IH (snd (perform manager findNodeHandle op w))).
    destruct (perform_calls op w) as (new & E & L & _).
    rewrite E, length_app in IH.
    destruct op as [ref | c args]; simpl in *; lia.
Qed.

End Mounting.

(** ** Props after default resolution *)

(** X12: every one of the eight optional props has a default, so whatever
    props the component is given, none of them is [undefined] once the
    defaults have been resolved. *)
Theorem resolved_props_all_defined (given : ExpoCamera2ViewProps) :
  is_Some (autofocus (resolveDefaultProps defaultProps given))
  /\ is_Some (facing (resolveDefaultProps defaultProps given))
  /\ is_Some (flashMode (resolveDefaultProps defaultProps given))
  /\ is_Some (focusDepth (resolveDefaultProps defaultProps given))
  /\ is_Some (whiteBalance (resolveDefaultProps defaultProps given))
  /\ is_Some (zoom (resolveDefaultProps defaultProps given))
  /\ is_Some (onCameraReady (resolveDefaultProps defaultProps given))
  /\ is_Some (onMountError (resolveDefaultProps defaultProps given)).
Proof.
  destruct given as [a f m d b z r e]; simpl.
  destruct a, f, m, d, b, z, r, e; simpl; repeat split; eexists; reflexivity.
Qed.

(** ** The ref callback that [render] attaches *)

Section Rendering.

Context {N Ref : Type}.
Variable findNodeHandle : Ref -> option Z.

(** X13: [render] attaches [setNativeReference] without binding it.  Called
    on the instance, the attached callback is [setNativeReference]; called
    as a plain function, it never writes the handle: it throws a
    [TypeError] exactly when the code reaches an assignment (a [null] ref,
    or a ref that resolves to a truthy handle), returns [undefined]
    otherwise, and leaves the world as it was in both cases. *)
Theorem unbound_ref_callback_never_writes (ref : option Ref) (w : World N) :
  element_ref (render findNodeHandle w) ThisInstance ref w
  = setNativeReference findNodeHandle ref w
  /\ snd (element_ref (render findNodeHandle w) ThisUndefined ref w) = w
  /\ (fst (element_ref (render findNodeHandle w) ThisUndefined ref w)
      = Throw TypeError
      <-> ref = None
          \/ exists r, ref = Some r
                       /\ handle_ToBoolean (findNodeHandle r) = true)
  /\ (fst (element_ref (render findNodeHandle w) ThisUndefined ref w)
      = Normal VUndefined
      <-> exists r, ref = Some r
                    /\ handle_ToBoolean (findNodeHandle r) = false).
Proof.
  simpl. unfold setNativeReference_on, setNativeReference.
  destruct ref as [r|].
  - destruct (handle_ToBoolean (findNodeHandle r)) eqn:T; simpl.
    + repeat split; try reflexivity.
      * intros _. right. exists r. split; [reflexivity | exact T].
      * intros H. discriminate H.
      * intros (r' & E & T'). injection E as <-. congruence.
    + repeat split; try reflexivity.
      * intros H. discriminate H.
      * intros [E | (r' & E & T')]; [discriminate E|].
        injection E as <-. congruence.
      * intros _. exists r. split; [reflexivity | exact T].
  - simpl. repeat split; try reflexivity.
    + intros _. now left.
    + intros H. discriminate H.
    + intros (r' & E & _). discriminate E.
Qed.

End Rendering.

(** ** The further properties on the sample native side *)

Lemma truthy_non_function_entry_is_type_error_sample :
  stubbed_manager !! command_name StopRecordingAsync
  = Some (EValue (VBool true))
  /\ ToBoolean (VBool true) = true
  /\ invoke stubbed_manager StopRecordingAsync [] mounted
     = (Throw (NotAFunction "stopRecordingAsync"), mounted).
Proof.
  split; [reflexivity | split; [reflexivity|]].
  apply (truthy_non_function_entry_is_type_error stubbed_manager
           StopRecordingAsync [] mounted (VBool true)); reflexivity.
Defined.

Lemma other_commands_unaffected_sample :
  StopRecordingAsync <> TakePictureAsync
  /\ invoke stubbed_manager TakePictureAsync [] mounted
     = invoke sample_manager TakePictureAsync [] mounted.
Proof.
  split; [discriminate|].
  apply (proj1 (other_commands_unaffected sample_manager StopRecordingAsync
                  TakePictureAsync (EValue (VBool true)) [] mounted
                  ltac:(discriminate))).
Defined.

Lemma only_first_argument_matters_sample :
  In PausePreviewAsync
    [PausePreviewAsync; ResumePreviewAsync; StopRecordingAsync;
     GetAvailableRatiosAsync]
  /\ invoke sample_manager PausePreviewAsync [VStr "now"; VNull] mounted
     = invoke sample_manager PausePreviewAsync [] mounted.
Proof.
  split; [simpl; left; reflexivity|].
  apply (proj2 (only_first_argument_matters sample_manager PausePreviewAsync
                  [VStr "now"; VNull] mounted)).
  simpl. left. reflexivity.
Defined.

Lemma unavailability_iff_falsy_entry_sample :
  entry_ToBoolean (property sample_manager (command_name RecordAsync)) = false
  /\ invoke sample_manager RecordAsync [] mounted
     = (Throw (UnavailabilityError "Camera" "recordAsync"), mounted).
Proof.
  split; [reflexivity|].
  apply (proj1 (unavailability_iff_falsy_entry sample_manager RecordAsync
                  [] mounted)).
  reflexivity.
Defined.

Lemma resolved_handle_is_forwarded_sample :
  handle_ToBoolean (sample_findNodeHandle 1) = true
  /\ sample_manager !! command_name TakePictureAsync
     = Some (EFunction native_takePictureAsync)
  /\ invoke sample_manager TakePictureAsync []
       (snd (setNativeReference sample_findNodeHandle (Some 1%nat) fresh))
     = (Normal (VPromise (Fulfilled picture)),
        {| component :=
             {| props := defaultProps; cameraNodeHandle := Some 7%Z |};
           native := 1%nat;
           calls := [("takePictureAsync", [VObj []; VNum (Qc_of_Z 7)])] |}).
Proof.
  split; [reflexivity | split; [reflexivity|]].
  apply (proj2 (resolved_handle_is_forwarded sample_manager
                  sample_findNodeHandle 1%nat fresh TakePictureAsync []
                  native_takePictureAsync eq_refl eq_refl)).
Defined.

Lemma stored_handle_never_zero_sample :
  cameraNodeHandle (component fresh) <> Some 0%Z
  /\ cameraNodeHandle
       (component (run sample_manager sample_findNodeHandle session fresh))
     <> Some 0%Z.
Proof.
  split; [discriminate|].
  apply (stored_handle_never_zero sample_manager sample_findNodeHandle
           session fresh).
  discriminate.
Defined.

Lemma registry_receives_truthy_or_undefined_handle_sample :
  cameraNodeHandle (component fresh) <> Some 0%Z
  /\ exists new,
       calls (run sample_manager sample_findNodeHandle session fresh)
       = calls fresh ++ new
       /\ Forall
            (fun cl =>
               exists c params h,
                 cl = (command_name c, params ++ [handle_value h])
                 /\ h <> Some 0%Z
                 /\ is_Some (sample_manager !! command_name c))
            new.
Proof.
  split; [discriminate|].
  apply (registry_receives_truthy_or_undefined_handle sample_manager
           sample_findNodeHandle session fresh).
  discriminate.
Defined.

(** What the session leaves in the call log. *)
Example session_calls :
  calls (run sample_manager sample_findNodeHandle session fresh)
  = [("takePictureAsync", [VObj []; VNum (Qc_of_Z 7)]);
     ("pausePreviewAsync", [VNum (Qc_of_Z 7)]);
     ("pausePreviewAsync", [VUndefined])].
Proof. vm_compute. reflexivity. Qed.
